(** * go-rest: the permission model and the REST dispatch handler

    A shallow embedding of package [rest] (rest.go): the [Permission]
    bit mask with its constants, the authorizer constructors [Everyone]
    and [Any], and the [Handler] that resolves a request method to one of
    five operation handlers and gates it behind the permission check.

    [Module http] holds the few pieces of Go's net/http the package
    touches; [Module rest] is the package itself. *)

From Stdlib Require Import NArith ZArith Lia.
From stdpp Require Import base option list strings gmap.

Local Open Scope string_scope.
Local Open Scope N_scope.
Local Open Scope list_scope.

(** ** net/http

    The standard library is not part of the repository; what follows is
    the documented behaviour of the pieces [rest.go] calls. *)
Module http.

(** [type Header map[string][]string] *)
Abbreviation Header := (gmap string (list string)).

(** The part of [*http.Request] a handler or an authorizer can look at:
    the method, the path of the URL and the request headers (where
    credentials travel). *)
Record Request : Type := mkRequest {
  Method : string;
  URLPath : string;
  ReqHeader : Header
}.

(** The state behind a [ResponseWriter]: the header map returned by
    [w.Header()], the status line once it has been written, and the
    chunks written to the body so far. *)
Record ResponseWriter : Type := mkResponseWriter {
  header : Header;
  status : option Z;
  body : list string
}.

Definition StatusOK : Z := 200.
Definition StatusForbidden : Z := 403.
Definition StatusMethodNotAllowed : Z := 405.

(** [w.Header()[k] = v]: plain assignment in the header map. *)
Definition setHeader (k : string) (v : list string) (w : ResponseWriter)
  : ResponseWriter :=
  {| header := <[k := v]> (header w); status := status w; body := body w |}.

(** [w.Header().Set(k, v)] for a key already in canonical form. *)
Definition Set_ (k v : string) (w : ResponseWriter) : ResponseWriter :=
  setHeader k [v] w.

(** [w.Header().Del(k)] *)
Definition Del_ (k : string) (w : ResponseWriter) : ResponseWriter :=
  {| header := delete k (header w); status := status w; body := body w |}.

(** [w.WriteHeader(code)]: the first status written wins, a later call
    is superfluous and ignored. *)
Definition WriteHeader (code : Z) (w : ResponseWriter) : ResponseWriter :=
  match status w with
  | Some _ => w
  | None => {| header := header w; status := Some code; body := body w |}
  end.

(** [w.Write(data)]: writes the status line with [StatusOK] first when
    none was written. *)
Definition Write_ (data : string) (w : ResponseWriter) : ResponseWriter :=
  let w := WriteHeader StatusOK w in
  {| header := header w; status := status w; body := body w ++ [data] |}.

Definition newline : string := String (Ascii.ascii_of_nat 10) EmptyString.

(** [http.Error(w, error, code)]: drops a stale Content-Length, declares
    a plain-text body, writes the status and then the message followed by
    a newline. *)
Definition Error (error : string) (code : Z) (w : ResponseWriter)
  : ResponseWriter :=
  let w := Del_ "Content-Length" w in
  let w := Set_ "Content-Type" "text/plain; charset=utf-8" w in
  let w := Set_ "X-Content-Type-Options" "nosniff" w in
  let w := WriteHeader code w in
  Write_ (error +:+ newline) w.

(** [type Handler interface { ServeHTTP(ResponseWriter, *Request) }]:
    an opaque callable that may write anything to the response. *)
Record Handler : Type := HandlerFunc {
  ServeHTTP : ResponseWriter -> Request -> ResponseWriter
}.

End http.

Module rest.

(** ** Permissions

    [type Permission uint].  The package only ever combines permissions
    with [|] and [&] and compares them; none of these leaves the range of
    [uint], so a permission is a natural number and [uint_ok] records the
    range for a word of [bits] bits (32 or 64 depending on the target). *)
Definition Permission : Type := N.

Definition uint_ok (bits : N) (p : Permission) : Prop := p < 2 ^ bits.

(** The [const] block: [1 << iota] for the five base flags, [iota] being
    the index of the line inside the block. *)
Definition List : Permission := N.shiftl 1 0.
Definition Post : Permission := N.shiftl 1 1.
Definition Get : Permission := N.shiftl 1 2.
Definition Put : Permission := N.shiftl 1 3.
Definition Del : Permission := N.shiftl 1 4.

Definition Read : Permission := N.lor List Get.
Definition Write : Permission := N.lor (N.lor Post Put) Del.
Definition All : Permission := N.lor Read Write.

(** An authorizer, [func(r *http.Request) Permission]. *)
Definition Authorizer : Type := http.Request -> Permission.

(** [Everyone] is an Auth function that will allow everyone the
    permissions [p]. *)
Definition Everyone (p : Permission) : Authorizer := fun _ => p.

(** [Any]: [var p Permission; for _, v := range f { p |= v(r) }; return p] *)
Definition Any (f : list Authorizer) : Authorizer :=
  fun r => fold_left (fun p v => N.lor p (v r)) f 0.

(** ** Effects

    [ServeHTTP] writes to the response and calls its collaborators (the
    Auth function and one operation handler).  The state threaded through
    it is the response writer together with the record of these calls, in
    the order they were made. *)
Inductive Call : Type :=
  | AuthCall (r : http.Request)
  | ServeCall (hnd : http.Handler) (r : http.Request).

Record World : Type := mkWorld {
  resp : http.ResponseWriter;
  calls : list Call
}.

Definition M (A : Type) : Type := World -> A * World.

#[export] Instance M_ret : MRet M := fun A x w => (x, w).
#[export] Instance M_bind : MBind M :=
  fun A B k m w => let '(x, w') := m w in k x w'.

(** The state a computation leaves behind. *)
Definition exec {A : Type} (m : M A) (w : World) : World := (m w).2.

(** An operation on the response writer. *)
Definition onWriter (f : http.ResponseWriter -> http.ResponseWriter) : M unit :=
  fun w => (tt, {| resp := f (resp w); calls := calls w |}).

(** [auth(r)] *)
Definition callAuth (auth : Authorizer) (r : http.Request) : M Permission :=
  fun w => (auth r, {| resp := resp w; calls := calls w ++ [AuthCall r] |}).

(** [hnd.ServeHTTP(w, r)] *)
Definition callHandler (hnd : http.Handler) (r : http.Request) : M unit :=
  fun w => (tt, {| resp := http.ServeHTTP hnd (resp w) r;
                   calls := calls w ++ [ServeCall hnd r] |}).

(** [x != nil] *)
Definition notnil {A : Type} (x : option A) : bool :=
  match x with Some _ => true | None => false end.

(** ** The handler *)
Module Handler.

(** A Handler bundles related methods to be registered on a path.  If
    [Auth] is nil, everyone can read, no-one can post/put/delete.  If both
    [List] and [Get] are defined, [List] is ignored and [Get] is used. *)
Record t : Type := mk {
  Auth : option Authorizer;
  List : option http.Handler;
  Post : option http.Handler;
  Get : option http.Handler;
  Put : option http.Handler;
  Del : option http.Handler
}.

Definition handler (h : t) (method : string)
  : option http.Handler * Permission :=
  if String.eqb method "GET" then
    if notnil (Get h) then (Get h, rest.Get) else (List h, rest.List)
  else if String.eqb method "POST" then (Post h, rest.Post)
  else if String.eqb method "PUT" then (Put h, rest.Put)
  else if String.eqb method "DELETE" then (Del h, rest.Del)
  else (None, 0).

Definition allowed (h : t) : list string :=
  let v : list string := [] in
  let v := if notnil (List h) || notnil (Get h) then v ++ ["GET"] else v in
  let v := if notnil (Post h) then v ++ ["POST"] else v in
  let v := if notnil (Put h) then v ++ ["PUT"] else v in
  let v := if notnil (Del h) then v ++ ["DELETE"] else v in
  v.

(** If there is no handler for the request method, returns
    'MethodNotAllowed'; otherwise calls the Auth function, and if the
    corresponding permission is missing returns 'Forbidden'.  Otherwise
    calls the registered handler. *)
Definition ServeHTTP (h : t) (r : http.Request) : M unit :=
  let '(hnd, want) := handler h (http.Method r) in
  match hnd with
  | None =>
      onWriter (http.setHeader "Allow" (allowed h)) ;;
      onWriter (http.Error "Method not allowed." http.StatusMethodNotAllowed)
  | Some hnd =>
      got ← match Auth h with
            | Some auth => callAuth auth r
            | None => mret Read
            end ;
      if negb (N.eqb (N.land want got) want)
      then onWriter (http.Error "Permission denied." http.StatusForbidden)
      else callHandler hnd r
  end.

End Handler.

End rest.

(** ** The example of rest_test.go *)
Module rest_test.

(** [MembersCanWrite]: the membership test is the constant [true]. *)
Definition MembersCanWrite : rest.Authorizer :=
  fun r => if true then rest.Write else rest.Read.

End rest_test.

Import rest.

(** ** Vocabulary of the statements *)

(** The value of the local [got] once [ServeHTTP] has passed the
    [if h.Auth != nil] statement. *)
Definition granted (h : Handler.t) (r : http.Request) : Permission :=
  match Handler.Auth h with
  | Some auth => auth r
  | None => Read
  end.

(** What consulting Auth adds to the record of calls. *)
Definition authLog (h : Handler.t) (r : http.Request) : list Call :=
  match Handler.Auth h with
  | Some _ => [AuthCall r]
  | None => []
  end.

(** The operation handlers invoked in a record of calls, oldest first. *)
Fixpoint served (cs : list Call) : list http.Handler :=
  match cs with
  | [] => []
  | ServeCall hnd _ :: cs => hnd :: served cs
  | AuthCall _ :: cs => served cs
  end.

(** The requests Auth was consulted for. *)
Fixpoint consulted (cs : list Call) : list http.Request :=
  match cs with
  | [] => []
  | AuthCall r :: cs => r :: consulted cs
  | ServeCall _ _ :: cs => consulted cs
  end.

(** ** Sample data *)

(** An operation handler that answers with a fixed body. *)
Definition reply (s : string) : http.Handler :=
  http.HandlerFunc (fun w _ => http.Write_ s w).

Definition request (method : string) : http.Request :=
  http.mkRequest method "/orders" ∅.

(** The world at the start of a request: nothing written, nobody called. *)
Definition fresh : World :=
  mkWorld (http.mkResponseWriter ∅ None []) [].

(** A collection path: [List] and [Post] only. *)
Definition collection (auth : option Authorizer) : Handler.t :=
  Handler.mk auth (Some (reply "list")) (Some (reply "post")) None None None.

(** An item path: [Get], [Put] and [Del]. *)
Definition item (auth : option Authorizer) : Handler.t :=
  Handler.mk auth None None
    (Some (reply "get")) (Some (reply "put")) (Some (reply "del")).

(** Both [List] and [Get] registered. *)
Definition listGet (auth : option Authorizer) : Handler.t :=
  Handler.mk auth (Some (reply "list")) None (Some (reply "get")) None None.

(** * Properties of the permission model *)

Section Permissions.

Lemma lor_uint_ok bits (p q : Permission) :
  uint_ok bits p -> uint_ok bits q -> uint_ok bits (N.lor p q).
Proof.
  unfold uint_ok. intros Hp Hq.
  destruct (N.eq_dec p 0) as [->|Hp0]; [now rewrite N.lor_0_l|].
  destruct (N.eq_dec q 0) as [->|Hq0]; [now rewrite N.lor_0_r|].
  assert (Hpq : N.lor p q <> 0) by (rewrite N.lor_eq_0_iff; tauto).
  apply N.log2_lt_pow2; [lia|]. rewrite N.log2_lor.
  apply N.max_lub_lt; apply N.log2_lt_pow2; lia.
Qed.

(** The accumulator of the loop in [Any] can be pulled out of the fold. *)
Lemma Any_loop (r : http.Request) (f : list Authorizer) (p : Permission) :
  fold_left (fun p v => N.lor p (v r)) f p
  = N.lor p (foldr (fun v q => N.lor (v r) q) 0 f).
Proof.
  revert p. induction f as [|v f IH]; intros p; simpl.
  - now rewrite N.lor_0_r.
  - rewrite IH. now rewrite N.lor_assoc.
Qed.

Lemma Any_foldr (f : list Authorizer) (r : http.Request) :
  Any f r = foldr (fun v q => N.lor (v r) q) 0 f.
Proof. unfold Any. rewrite Any_loop. apply N.lor_0_l. Qed.

Lemma Any_cons (v : Authorizer) (f : list Authorizer) (r : http.Request) :
  Any (v :: f) r = N.lor (v r) (Any f r).
Proof. now rewrite !Any_foldr. Qed.

Lemma Any_testbit (f : list Authorizer) (r : http.Request) (i : N) :
  N.testbit (Any f r) i = existsb (fun v => N.testbit (v r) i) f.
Proof.
  induction f as [|v f IH]; [reflexivity|].
  rewrite Any_cons, N.lor_spec, IH. reflexivity.
Qed.

Lemma Any_Permutation (f g : list Authorizer) (r : http.Request) :
  f ≡ₚ g -> Any f r = Any g r.
Proof.
  induction 1 as [|v f g _ IH|v v' f|f g k _ IH1 _ IH2].
  - reflexivity.
  - now rewrite !Any_cons, IH.
  - rewrite !Any_cons, !N.lor_assoc. f_equal. apply N.lor_comm.
  - congruence.
Qed.

(** Whatever the authorizers, the union stays inside the word. *)
Lemma Any_uint_ok bits (f : list Authorizer) (r : http.Request) :
  Forall (fun v => uint_ok bits (v r)) f -> uint_ok bits (Any f r).
Proof.
  induction 1 as [|v f Hv _ IH].
  - unfold uint_ok, Any. simpl. apply N.neq_0_lt_0. apply N.pow_nonzero. lia.
  - rewrite Any_cons. now apply lor_uint_ok.
Qed.

(** C9: [List], [Post], [Get], [Put], [Del] are the five single-bit
    values 1, 2, 4, 8 and 16, pairwise distinct (no two share a bit), and
    the composites are the unions [Read = List | Get],
    [Write = Post | Put | Del] and [All = Read | Write], that is 5, 26
    and 31. *)
Theorem permission_constants :
  [rest.List; Post; Get; Put; Del] = (fun k => 2 ^ k) <$> [0; 1; 2; 3; 4]
  /\ NoDup [rest.List; Post; Get; Put; Del]
  /\ (forall i, N.testbit rest.List i = bool_decide (i = 0))
  /\ (forall i, N.testbit Post i = bool_decide (i = 1))
  /\ (forall i, N.testbit Get i = bool_decide (i = 2))
  /\ (forall i, N.testbit Put i = bool_decide (i = 3))
  /\ (forall i, N.testbit Del i = bool_decide (i = 4))
  /\ Read = N.lor rest.List Get /\ Read = 5
  /\ Write = N.lor (N.lor Post Put) Del /\ Write = 26
  /\ All = N.lor Read Write /\ All = 31.
Proof.
  assert (Hbit : forall k i, N.testbit (2 ^ k) i = bool_decide (i = k)).
  { intros k i. rewrite N.pow2_bits_eqb.
    destruct (N.eqb_spec k i); case_bool_decide; congruence. }
  split; [reflexivity|]. split.
  { compute_done. }
  split; [exact (Hbit 0)|]. split; [exact (Hbit 1)|].
  split; [exact (Hbit 2)|]. split; [exact (Hbit 3)|].
  split; [exact (Hbit 4)|]. repeat split.
Qed.

(** C8: [Any f] applied to [r] is the bitwise union of the permissions
    the authorizers in [f] return for [r]: a bit is granted exactly when
    some authorizer grants it; with no authorizer the result is 0; for
    two authorizers it is [f1 r | f2 r]; and permuting the authorizers
    does not change the result. *)
Theorem Any_union :
  (forall (f : list Authorizer) r,
      Any f r = foldr N.lor 0 ((fun v => v r) <$> f))
  /\ (forall (f : list Authorizer) r i,
      N.testbit (Any f r) i = existsb (fun v => N.testbit (v r) i) f)
  /\ (forall r, Any [] r = 0)
  /\ (forall (f1 f2 : Authorizer) r, Any [f1; f2] r = N.lor (f1 r) (f2 r))
  /\ (forall (f g : list Authorizer) r, f ≡ₚ g -> Any f r = Any g r).
Proof.
  split; [|split; [|split; [|split]]].
  - intros f r. rewrite Any_foldr.
    induction f as [|v f IH]; csimpl; [reflexivity|]. now rewrite IH.
  - apply Any_testbit.
  - reflexivity.
  - intros f1 f2 r. rewrite !Any_cons. unfold Any at 1. simpl.
    now rewrite N.lor_0_r.
  - apply Any_Permutation.
Qed.

(** With [f1] always [List] and [f2] always [Get], both orders give
    [List | Get]. *)
Lemma Any_union_witness :
  Any [Everyone rest.List; Everyone Get] (request "GET")
  = Any [Everyone Get; Everyone rest.List] (request "GET").
Proof.
  apply (proj2 (proj2 (proj2 (proj2 Any_union)))).
  apply Permutation_swap.
Defined.

End Permissions.

(** * Properties of the dispatch handler *)

Section Dispatch.

Import Handler.

Implicit Types (h : Handler.t) (r : http.Request) (w : World).
Implicit Types (hnd : http.Handler) (want got : Permission).

(** ** The response writer *)

Lemma WriteHeader_header code (rw : http.ResponseWriter) :
  http.header (http.WriteHeader code rw) = http.header rw.
Proof. unfold http.WriteHeader. now destruct (http.status rw). Qed.

Lemma WriteHeader_status code (rw : http.ResponseWriter) :
  http.status (http.WriteHeader code rw)
  = Some (default code (http.status rw)).
Proof.
  unfold http.WriteHeader. now destruct (http.status rw) as [c|] eqn:E.
Qed.

Lemma Error_status msg code (rw : http.ResponseWriter) :
  http.status rw = None -> http.status (http.Error msg code rw) = Some code.
Proof.
  intros Hrw. unfold http.Error, http.Write_. cbn [http.status].
  rewrite !WriteHeader_status. cbn. now rewrite Hrw.
Qed.

Lemma Error_header msg code (rw : http.ResponseWriter) (k : string) :
  k <> "Content-Length" -> k <> "Content-Type" ->
  k <> "X-Content-Type-Options" ->
  http.header (http.Error msg code rw) !! k = http.header rw !! k.
Proof.
  intros H1 H2 H3. unfold http.Error, http.Write_. cbn [http.header].
  rewrite !WriteHeader_header. cbn.
  rewrite !lookup_insert_ne by congruence. now apply lookup_delete_ne.
Qed.

(** ** Bit masks *)

Lemma land_subset (a g : N) :
  N.land a g = a <-> forall i, N.testbit a i = true -> N.testbit g i = true.
Proof.
  split.
  - intros H i Ha. rewrite <- H, N.land_spec in Ha.
    now apply andb_true_iff in Ha.
  - intros H. apply N.bits_inj. intros i. rewrite N.land_spec.
    destruct (N.testbit a i) eqn:Ha; [|reflexivity].
    now rewrite (H i Ha).
Qed.

Lemma List_bit (g : N) : N.land rest.List g = rest.List <-> N.testbit g 0 = true.
Proof.
  rewrite land_subset. split.
  - intros H. now apply H.
  - intros H i Hi. change rest.List with (2 ^ 0) in Hi.
    rewrite N.pow2_bits_eqb in Hi. apply N.eqb_eq in Hi. now subst i.
Qed.

(** ** Call records *)

Lemma served_app (cs ds : list Call) : served (cs ++ ds) = served cs ++ served ds.
Proof.
  induction cs as [|[r|hnd r] cs IH]; simpl; [reflexivity|assumption|].
  now rewrite IH.
Qed.

Lemma consulted_app (cs ds : list Call) :
  consulted (cs ++ ds) = consulted cs ++ consulted ds.
Proof.
  induction cs as [|[r|hnd r] cs IH]; simpl; [reflexivity| |assumption].
  now rewrite IH.
Qed.

Lemma served_authLog h r : served (authLog h r) = [].
Proof. unfold authLog. now destruct (Auth h). Qed.

(** ** Method resolution *)

Lemma handler_GET h :
  handler h "GET"
  = match Get h with
    | Some g => (Some g, rest.Get)
    | None => (List h, rest.List)
    end.
Proof. unfold handler. simpl. now destruct (Get h). Qed.

Lemma handler_unresolved h (m : string) :
  (handler h m).1 = None
  <-> (m = "GET" /\ Get h = None /\ List h = None)
      \/ (m = "POST" /\ Post h = None)
      \/ (m = "PUT" /\ Put h = None)
      \/ (m = "DELETE" /\ Del h = None)
      \/ m ∉ ["GET"; "POST"; "PUT"; "DELETE"].
Proof.
  unfold handler.
  destruct (String.eqb_spec m "GET") as [->|HG].
  { destruct (Get h) eqn:EG; simpl; split.
    - discriminate.
    - intros [[_ [? _]]|[[? _]|[[? _]|[[? _]|Hn]]]]; try discriminate.
      exfalso. apply Hn. set_solver.
    - intros HL. left. auto.
    - intros [[_ [_ ?]]|[[? _]|[[? _]|[[? _]|Hn]]]]; try discriminate;
        [assumption|]. exfalso. apply Hn. set_solver. }
  destruct (String.eqb_spec m "POST") as [->|HP].
  { simpl; split.
    - intros HL. right. left. auto.
    - intros [[? _]|[[_ ?]|[[? _]|[[? _]|Hn]]]]; try discriminate;
        [assumption|]. exfalso. apply Hn. set_solver. }
  destruct (String.eqb_spec m "PUT") as [->|HU].
  { simpl; split.
    - intros HL. right. right. left. auto.
    - intros [[? _]|[[? _]|[[_ ?]|[[? _]|Hn]]]]; try discriminate;
        [assumption|]. exfalso. apply Hn. set_solver. }
  destruct (String.eqb_spec m "DELETE") as [->|HD].
  { simpl; split.
    - intros HL. do 3 right. left. auto.
    - intros [[? _]|[[? _]|[[? _]|[[_ ?]|Hn]]]]; try discriminate;
        [assumption|]. exfalso. apply Hn. set_solver. }
  simpl. split; [|reflexivity].
  intros _. do 4 right. rewrite !not_elem_of_cons.
  repeat split; try assumption. apply not_elem_of_nil.
Qed.

(** ** The three ways out of [ServeHTTP] *)

Lemma ServeHTTP_unresolved h r w :
  (handler h (http.Method r)).1 = None ->
  ServeHTTP h r w
  = (tt, mkWorld
           (http.Error "Method not allowed." http.StatusMethodNotAllowed
              (http.setHeader "Allow" (allowed h) (resp w)))
           (calls w)).
Proof.
  unfold ServeHTTP. destruct (handler h (http.Method r)) as [[hnd|] want];
    simpl; [discriminate|]. reflexivity.
Qed.

Lemma ServeHTTP_resolved h r w hnd want :
  handler h (http.Method r) = (Some hnd, want) ->
  ServeHTTP h r w
  = if N.eqb (N.land want (granted h r)) want
    then (tt, mkWorld (http.ServeHTTP hnd (resp w) r)
                (calls w ++ authLog h r ++ [ServeCall hnd r]))
    else (tt, mkWorld
                (http.Error "Permission denied." http.StatusForbidden (resp w))
                (calls w ++ authLog h r)).
Proof.
  intros Hres. unfold ServeHTTP, granted, authLog. rewrite Hres.
  unfold mbind, M_bind, mret, M_ret, callAuth, callHandler, onWriter.
  destruct (Auth h) as [auth|]; simpl.
  - destruct (N.eqb (N.land want (auth r)) want); simpl;
      now rewrite <- ?app_assoc.
  - destruct (N.eqb (N.land want Read) want); simpl;
      now rewrite ?app_nil_r.
Qed.

Lemma exec_unresolved h r w :
  (handler h (http.Method r)).1 = None ->
  exec (ServeHTTP h r) w
  = mkWorld
      (http.Error "Method not allowed." http.StatusMethodNotAllowed
         (http.setHeader "Allow" (allowed h) (resp w)))
      (calls w).
Proof. intros Hres. unfold exec. now rewrite ServeHTTP_unresolved. Qed.

Lemma exec_allowed h r w hnd want :
  handler h (http.Method r) = (Some hnd, want) ->
  N.land want (granted h r) = want ->
  exec (ServeHTTP h r) w
  = mkWorld (http.ServeHTTP hnd (resp w) r)
      (calls w ++ authLog h r ++ [ServeCall hnd r]).
Proof.
  intros Hres Hsub. unfold exec. rewrite (ServeHTTP_resolved _ _ _ _ _ Hres).
  rewrite Hsub, N.eqb_refl. reflexivity.
Qed.

Lemma exec_forbidden h r w hnd want :
  handler h (http.Method r) = (Some hnd, want) ->
  N.land want (granted h r) <> want ->
  exec (ServeHTTP h r) w
  = mkWorld (http.Error "Permission denied." http.StatusForbidden (resp w))
      (calls w ++ authLog h r).
Proof.
  intros Hres Hsub. unfold exec. rewrite (ServeHTTP_resolved _ _ _ _ _ Hres).
  apply N.eqb_neq in Hsub. now rewrite Hsub.
Qed.

(** ** Resolution of GET *)

(** C4: a GET resolves to the [Get] handler, with the [Get] bit required,
    whenever the [Get] slot is filled, in particular when [List] is
    filled too; it resolves to the [List] slot, with the [List] bit
    required, only when the [Get] slot is nil; and the two bits differ. *)
Theorem GET_prefers_Get h :
  (forall g, Get h = Some g -> handler h "GET" = (Some g, rest.Get))
  /\ (forall g l, Get h = Some g -> List h = Some l ->
        handler h "GET" = (Some g, rest.Get))
  /\ (Get h = None -> handler h "GET" = (List h, rest.List))
  /\ ((handler h "GET").2 = rest.List -> Get h = None)
  /\ rest.Get <> rest.List.
Proof.
  rewrite handler_GET. repeat split.
  - now intros g ->.
  - now intros g l -> _.
  - now intros ->.
  - destruct (Get h); [discriminate|reflexivity].
  - discriminate.
Qed.

Lemma GET_prefers_Get_witness :
  Get (listGet None) = Some (reply "get")
  /\ List (listGet None) = Some (reply "list")
  /\ handler (listGet None) "GET" = (Some (reply "get"), rest.Get).
Proof.
  split; [reflexivity|]. split; [reflexivity|].
  apply (proj1 (proj2 (GET_prefers_Get (listGet None)))
           (reply "get") (reply "list")); reflexivity.
Defined.

(** C6: with only [List] and [Post] registered, a GET resolves to the
    [List] handler and the required permission is the [List] bit. *)
Theorem GET_on_collection h l p :
  List h = Some l -> Post h = Some p ->
  Get h = None -> Put h = None -> Del h = None ->
  handler h "GET" = (Some l, rest.List).
Proof. intros HL _ HG _ _. now rewrite handler_GET, HG, HL. Qed.

Lemma GET_on_collection_witness :
  handler (collection None) "GET" = (Some (reply "list"), rest.List).
Proof.
  apply (GET_on_collection (collection None) (reply "list") (reply "post"));
    reflexivity.
Defined.

(** C5, as the code has it: when the [Get] slot is nil and the [List]
    slot is filled, a GET is resolved to the [List] handler and the bit
    checked is [List] (bit 0 of the granted permission), whatever the
    [Get] bit says: the handler runs when bit 0 is granted, and otherwise
    the response is the 403 error and no operation handler runs. *)
Theorem GET_fallback_checks_List h l r w :
  Get h = None -> List h = Some l -> http.Method r = "GET" ->
  handler h (http.Method r) = (Some l, rest.List)
  /\ (N.testbit (granted h r) 0 = true ->
        exec (ServeHTTP h r) w
        = mkWorld (http.ServeHTTP l (resp w) r)
            (calls w ++ authLog h r ++ [ServeCall l r]))
  /\ (N.testbit (granted h r) 0 = false ->
        exec (ServeHTTP h r) w
        = mkWorld
            (http.Error "Permission denied." http.StatusForbidden (resp w))
            (calls w ++ authLog h r)).
Proof.
  intros HG HL Hm.
  assert (Hres : handler h (http.Method r) = (Some l, rest.List))
    by now rewrite Hm, handler_GET, HG, HL.
  split; [exact Hres|]. split; intros Hbit.
  - apply (exec_allowed _ _ _ _ _ Hres). now apply List_bit.
  - apply (exec_forbidden _ _ _ _ _ Hres). rewrite List_bit. congruence.
Qed.

Lemma GET_fallback_checks_List_witness :
  exec (ServeHTTP (collection (Some (Everyone rest.Get))) (request "GET")) fresh
  = mkWorld
      (http.Error "Permission denied." http.StatusForbidden (resp fresh))
      [AuthCall (request "GET")].
Proof.
  apply (GET_fallback_checks_List (collection (Some (Everyone rest.Get)))
           (reply "list") (request "GET") fresh); reflexivity.
Defined.

(** Against C5 as stated: on a handler with [List] only, the permission
    required for a GET is not the [Get] bit; a caller granted exactly
    [Get] is refused with 403 and the [List] handler does not run, while a
    caller granted exactly [List] is served by it. *)
Lemma GET_fallback_not_Get :
  Get (collection None) = None
  /\ List (collection None) = Some (reply "list")
  /\ (handler (collection None) "GET").2 <> rest.Get
  /\ http.status (resp (exec (ServeHTTP (collection (Some (Everyone rest.Get)))
                               (request "GET")) fresh))
     = Some http.StatusForbidden
  /\ served (calls (exec (ServeHTTP (collection (Some (Everyone rest.Get)))
                            (request "GET")) fresh)) = []
  /\ served (calls (exec (ServeHTTP (collection (Some (Everyone rest.List)))
                            (request "GET")) fresh)) = [reply "list"].
Proof. repeat split; vm_compute; congruence. Qed.

(** ** The access decision *)

(** C1: once a method has resolved to [hnd] with required permission
    [want], and [got] is the permission granted for the request, the
    handler is invoked exactly when [want & got = want], that is when
    every bit of [want] is a bit of [got]; otherwise no handler is
    invoked.  In particular [Get] against [Read] passes, [Put] against
    [Read] fails and [Put] against [Write] passes. *)
Theorem access_decision h r w hnd want :
  handler h (http.Method r) = (Some hnd, want) ->
  (served (calls (exec (ServeHTTP h r) w)) = served (calls w) ++ [hnd]
   <-> N.land want (granted h r) = want)
  /\ (served (calls (exec (ServeHTTP h r) w)) = served (calls w)
      <-> N.land want (granted h r) <> want)
  /\ (N.land want (granted h r) = want
      <-> forall i, N.testbit want i = true ->
                    N.testbit (granted h r) i = true)
  /\ N.land rest.Get Read = rest.Get
  /\ N.land rest.Put Read <> rest.Put
  /\ N.land rest.Put Write = rest.Put.
Proof.
  intros Hres.
  assert (Hyes : N.land want (granted h r) = want ->
                 served (calls (exec (ServeHTTP h r) w))
                 = served (calls w) ++ [hnd]).
  { intros Hsub. rewrite (exec_allowed _ _ _ _ _ Hres Hsub). cbn [calls].
    now rewrite !served_app, served_authLog. }
  assert (Hno : N.land want (granted h r) <> want ->
                served (calls (exec (ServeHTTP h r) w)) = served (calls w)).
  { intros Hsub. rewrite (exec_forbidden _ _ _ _ _ Hres Hsub). cbn [calls].
    now rewrite served_app, served_authLog, app_nil_r. }
  assert (Hlen : served (calls w) ++ [hnd] <> served (calls w)).
  { intros E. apply (f_equal length) in E. rewrite length_app in E.
    simpl in E. lia. }
  split; [|split; [|split]].
  - split; [|exact Hyes]. intros E.
    destruct (N.eq_dec (N.land want (granted h r)) want) as [|Hne];
      [assumption|].
    rewrite (Hno Hne) in E. now destruct Hlen.
  - split; [|exact Hno]. intros E Hsub.
    rewrite (Hyes Hsub) in E. now destruct Hlen.
  - apply land_subset.
  - repeat split; discriminate.
Qed.

Lemma access_decision_witness :
  handler (item (Some (Everyone All))) "DELETE" = (Some (reply "del"), rest.Del)
  /\ served (calls (exec (ServeHTTP (item (Some (Everyone All)))
                            (request "DELETE")) fresh))
     = [reply "del"].
Proof.
  split; [reflexivity|].
  apply (proj1 (access_decision (item (Some (Everyone All)))
                  (request "DELETE") fresh (reply "del") rest.Del eq_refl)).
  reflexivity.
Defined.

(** C7: when the required permission of the resolved operation is not
    contained in the granted permission, [ServeHTTP] answers 403 on a
    response whose status is still unwritten, the response is exactly
    what [http.Error] makes of it, and the record of calls gains no
    operation handler: at most the consultation of Auth. *)
Theorem forbidden_invokes_no_handler h r w hnd want :
  handler h (http.Method r) = (Some hnd, want) ->
  N.land want (granted h r) <> want ->
  http.status (resp w) = None ->
  http.status (resp (exec (ServeHTTP h r) w)) = Some http.StatusForbidden
  /\ resp (exec (ServeHTTP h r) w)
     = http.Error "Permission denied." http.StatusForbidden (resp w)
  /\ calls (exec (ServeHTTP h r) w) = calls w ++ authLog h r
  /\ served (calls (exec (ServeHTTP h r) w)) = served (calls w).
Proof.
  intros Hres Hsub Hw. rewrite (exec_forbidden _ _ _ _ _ Hres Hsub).
  cbn [resp calls]. repeat split.
  - now apply Error_status.
  - now rewrite served_app, served_authLog, app_nil_r.
Qed.

Lemma forbidden_invokes_no_handler_witness :
  N.land rest.Put (granted (item (Some (Everyone Read))) (request "PUT"))
  <> rest.Put
  /\ http.status (resp (exec (ServeHTTP (item (Some (Everyone Read)))
                                (request "PUT")) fresh))
     = Some http.StatusForbidden
  /\ served (calls (exec (ServeHTTP (item (Some (Everyone Read)))
                            (request "PUT")) fresh)) = [].
Proof.
  split; [discriminate|].
  destruct (forbidden_invokes_no_handler (item (Some (Everyone Read)))
              (request "PUT") fresh (reply "put") rest.Put)
    as (Hs & _ & _ & Hc); [reflexivity|discriminate|reflexivity|].
  split; [exact Hs|exact Hc].
Defined.

(** C3: with a nil [Auth], a request that resolves to [hnd] with
    required permission [want] is decided against [Read] and nothing
    else: [hnd] is called when [want & Read = want] and the request is
    refused otherwise, and Auth is not consulted.  Hence a PUT on a
    handler with a [Put] slot and no [Auth] is answered 403 and the
    record of calls does not change: the [Put] handler is not invoked. *)
Theorem nil_Auth_grants_Read h r w :
  Auth h = None ->
  granted h r = Read
  /\ (forall hnd want,
        handler h (http.Method r) = (Some hnd, want) ->
        ServeHTTP h r w
        = if N.eqb (N.land want Read) want
          then callHandler hnd r w
          else onWriter
                 (http.Error "Permission denied." http.StatusForbidden) w)
  /\ (forall p,
        http.Method r = "PUT" -> Put h = Some p ->
        http.status (resp w) = None ->
        http.status (resp (exec (ServeHTTP h r) w))
        = Some http.StatusForbidden
        /\ calls (exec (ServeHTTP h r) w) = calls w).
Proof.
  intros HA.
  assert (Hg : granted h r = Read) by (unfold granted; now rewrite HA).
  assert (Hl : authLog h r = []) by (unfold authLog; now rewrite HA).
  split; [exact Hg|]. split.
  - intros hnd want Hres. rewrite (ServeHTTP_resolved _ _ _ _ _ Hres).
    rewrite Hg, Hl. unfold callHandler, onWriter.
    now rewrite app_nil_r.
  - intros p Hm HP Hw.
    assert (Hres : handler h (http.Method r) = (Some p, rest.Put))
      by (rewrite Hm; unfold handler; simpl; now rewrite HP).
    assert (Hsub : N.land rest.Put (granted h r) <> rest.Put)
      by (rewrite Hg; discriminate).
    rewrite (exec_forbidden _ _ _ _ _ Hres Hsub). cbn [resp calls].
    split; [now apply Error_status|]. now rewrite Hl, app_nil_r.
Qed.

Lemma nil_Auth_grants_Read_witness :
  Auth (item None) = None
  /\ http.status (resp (exec (ServeHTTP (item None) (request "PUT")) fresh))
     = Some http.StatusForbidden
  /\ calls (exec (ServeHTTP (item None) (request "PUT")) fresh) = [].
Proof.
  split; [reflexivity|].
  apply (proj2 (proj2 (nil_Auth_grants_Read (item None) (request "PUT")
                         fresh eq_refl)) (reply "put"));
    reflexivity.
Defined.

(** ** Method not allowed *)

Lemma allowed_spec h :
  allowed h
  = (if notnil (List h) || notnil (Get h) then ["GET"] else [])
    ++ (if notnil (Post h) then ["POST"] else [])
    ++ (if notnil (Put h) then ["PUT"] else [])
    ++ (if notnil (Del h) then ["DELETE"] else []).
Proof.
  unfold allowed.
  destruct (List h), (Get h), (Post h), (Put h), (Del h); reflexivity.
Qed.

(** C2: when the method resolves to no operation handler (the slot of a
    recognised method is empty, both [Get] and [List] for GET, or the
    method is none of GET, POST, PUT, DELETE), [ServeHTTP] answers 405 on
    a response whose status is still unwritten and leaves under "Allow" the
    list [allowed h], one method per entry: "GET" iff [List] or [Get] is
    present, then "POST" iff [Post], "PUT" iff [Put], "DELETE" iff [Del]. *)
Theorem method_not_allowed h r w :
  (handler h (http.Method r)).1 = None ->
  http.status (resp w) = None ->
  http.status (resp (exec (ServeHTTP h r) w))
  = Some http.StatusMethodNotAllowed
  /\ http.StatusMethodNotAllowed = 405%Z
  /\ http.header (resp (exec (ServeHTTP h r) w)) !! "Allow"
     = Some (allowed h)
  /\ allowed h
     = (if notnil (List h) || notnil (Get h) then ["GET"] else [])
       ++ (if notnil (Post h) then ["POST"] else [])
       ++ (if notnil (Put h) then ["PUT"] else [])
       ++ (if notnil (Del h) then ["DELETE"] else [])
  /\ ((http.Method r = "GET" /\ Get h = None /\ List h = None)
      \/ (http.Method r = "POST" /\ Post h = None)
      \/ (http.Method r = "PUT" /\ Put h = None)
      \/ (http.Method r = "DELETE" /\ Del h = None)
      \/ http.Method r ∉ ["GET"; "POST"; "PUT"; "DELETE"]).
Proof.
  intros Hres Hw. rewrite (exec_unresolved _ _ _ Hres). cbn [resp].
  split; [|split; [|split; [|split]]].
  - now apply Error_status.
  - reflexivity.
  - rewrite Error_header by discriminate. apply lookup_insert_eq.
  - apply allowed_spec.
  - now apply handler_unresolved.
Qed.

Lemma method_not_allowed_witness :
  (handler (collection None) "DELETE").1 = None
  /\ http.status (resp (exec (ServeHTTP (collection None) (request "DELETE"))
                          fresh)) = Some 405%Z
  /\ http.header (resp (exec (ServeHTTP (collection None) (request "DELETE"))
                          fresh)) !! "Allow" = Some ["GET"; "POST"].
Proof.
  split; [reflexivity|].
  destruct (method_not_allowed (collection None) (request "DELETE") fresh)
    as (Hs & _ & Ha & _); [reflexivity..|].
  split; [exact Hs|exact Ha].
Defined.

(** C10: when the method resolves to no operation handler, two handlers
    that differ only in their [Auth] field leave the same world behind
    (same status, same headers with the same "Allow" list, same body), and
    the record of calls is unchanged: Auth was not consulted. *)
Theorem method_not_allowed_ignores_Auth
    (a1 a2 : option Authorizer) (l p g u d : option http.Handler) r w :
  (handler (Handler.mk a1 l p g u d) (http.Method r)).1 = None ->
  ServeHTTP (Handler.mk a1 l p g u d) r w
  = ServeHTTP (Handler.mk a2 l p g u d) r w
  /\ (handler (Handler.mk a2 l p g u d) (http.Method r)).1 = None
  /\ calls (exec (ServeHTTP (Handler.mk a1 l p g u d) r) w) = calls w
  /\ consulted (calls (exec (ServeHTTP (Handler.mk a1 l p g u d) r) w))
     = consulted (calls w).
Proof.
  intros Hres.
  assert (Hres' : (handler (Handler.mk a2 l p g u d) (http.Method r)).1 = None)
    by exact Hres.
  rewrite (exec_unresolved _ _ _ Hres).
  rewrite (ServeHTTP_unresolved _ _ _ Hres), (ServeHTTP_unresolved _ _ _ Hres').
  split; [reflexivity|]. split; [exact Hres'|]. split; reflexivity.
Qed.

Lemma method_not_allowed_ignores_Auth_witness :
  ServeHTTP (collection (Some (Everyone All))) (request "DELETE") fresh
  = ServeHTTP (collection None) (request "DELETE") fresh
  /\ calls (exec (ServeHTTP (collection (Some (Everyone All)))
                    (request "DELETE")) fresh) = [].
Proof.
  destruct (method_not_allowed_ignores_Auth (Some (Everyone All)) None
              (Some (reply "list")) (Some (reply "post")) None None None
              (request "DELETE") fresh eq_refl)
    as (He & _ & Hc & _).
  split; [exact He|exact Hc].
Defined.

End Dispatch.

(** * Composing authorizers *)

Section Authorizers.

Implicit Types (f g : list Authorizer) (v : Authorizer) (r : http.Request).

Lemma uint_ok_bits bits (p : Permission) :
  uint_ok bits p <-> forall i, bits <= i -> N.testbit p i = false.
Proof.
  unfold uint_ok. split.
  - intros Hp i Hi. destruct (N.eq_dec p 0) as [->|Hp0].
    + apply N.bits_0.
    + apply N.bits_above_log2. apply N.log2_lt_pow2 in Hp; lia.
  - intros Hhi. destruct (N.lt_ge_cases p (2 ^ bits)) as [|Hge]; [assumption|].
    assert (Hp0 : p <> 0).
    { assert (0 < 2 ^ bits) by (apply N.neq_0_lt_0, N.pow_nonzero; lia). lia. }
    assert (Hlog : bits <= N.log2 p).
    { apply N.log2_le_pow2; lia. }
    specialize (Hhi _ Hlog). rewrite (N.bit_log2 p Hp0) in Hhi. discriminate.
Qed.

Lemma Any_app f g r : Any (f ++ g) r = N.lor (Any f r) (Any g r).
Proof.
  induction f as [|v f IH]; simpl.
  - change (Any [] r) with 0. now rewrite N.lor_0_l.
  - rewrite !Any_cons, IH. apply N.lor_assoc.
Qed.

(** X1: [Any] composes: the authorizer of a concatenation is the union
    of the two authorizers; nesting [Any] inside [Any] is the same as
    passing the flattened list; and [Any] of one authorizer is that
    authorizer. *)
Theorem Any_compose :
  (forall f g r, Any (f ++ g) r = N.lor (Any f r) (Any g r))
  /\ (forall f g r, Any [Any f; Any g] r = Any (f ++ g) r)
  /\ (forall (ff : list (list Authorizer)) r,
        Any (Any <$> ff) r = Any (concat ff) r)
  /\ (forall v r, Any [v] r = v r).
Proof.
  assert (Hone : forall v r, Any [v] r = v r).
  { intros v r. rewrite Any_cons. change (Any [] r) with 0.
    apply N.lor_0_r. }
  split; [apply Any_app|]. split; [|split; [|exact Hone]].
  - intros f g r. rewrite Any_cons, Hone. symmetry. apply Any_app.
  - intros ff r. induction ff as [|f ff IH]; csimpl; [reflexivity|].
    now rewrite Any_cons, Any_app, IH.
Qed.

(** X2: adding authorizers to [Any] never takes a permission away: when
    every authorizer of [f] also occurs in [g] (in any order, any number
    of times), every bit granted by [Any f] is granted by [Any g]. *)
Theorem Any_monotone f g r :
  f ⊆ g -> N.land (Any f r) (Any g r) = Any f r.
Proof.
  intros Hfg. apply N.bits_inj. intros i. rewrite N.land_spec.
  destruct (N.testbit (Any f r) i) eqn:Hf; [|reflexivity].
  rewrite Any_testbit in Hf. apply existsb_exists in Hf as (v & Hv & Hbit).
  rewrite Any_testbit. simpl. apply existsb_exists. exists v. split; [|assumption].
  apply list_elem_of_In, Hfg, list_elem_of_In, Hv.
Qed.

Lemma Any_monotone_witness :
  N.land (Any [Everyone Put] (request "PUT"))
         (Any [Everyone Read; Everyone Put; Everyone Put] (request "PUT"))
  = Any [Everyone Put] (request "PUT").
Proof.
  apply (Any_monotone [Everyone Put]
           [Everyone Read; Everyone Put; Everyone Put] (request "PUT")).
  intros v Hv. apply list_elem_of_singleton in Hv. subst v.
  apply list_elem_of_further, list_elem_of_here.
Defined.

(** X3: the union computed by [Any] fits in a word of [bits] bits
    exactly when the result of every authorizer does: the loop cannot
    overflow a [uint], and it cannot hide a result that is out of range. *)
Theorem Any_fits_uint bits f r :
  uint_ok bits (Any f r) <-> Forall (fun v => uint_ok bits (v r)) f.
Proof.
  rewrite uint_ok_bits, Forall_forall. split.
  - intros Hany v Hv. apply uint_ok_bits. intros i Hi.
    specialize (Hany i Hi). rewrite Any_testbit in Hany.
    destruct (N.testbit (v r) i) eqn:Hbit; [|reflexivity].
    rewrite <- Hany. symmetry. apply existsb_exists. exists v.
    split; [now apply list_elem_of_In|assumption].
  - intros Hall i Hi. rewrite Any_testbit.
    destruct (existsb (fun v => N.testbit (v r) i) f) eqn:Hex; [|exact Hex].
    apply existsb_exists in Hex as (v & Hv & Hbit).
    apply list_elem_of_In in Hv.
    pose proof (proj1 (uint_ok_bits bits (v r)) (Hall v Hv) i Hi). congruence.
Qed.

Lemma Any_fits_uint_witness :
  uint_ok 32 (Any [Everyone Read; rest_test.MembersCanWrite] (request "GET")).
Proof.
  apply (proj2 (Any_fits_uint 32 [Everyone Read; rest_test.MembersCanWrite]
                  (request "GET"))).
  repeat constructor.
Defined.

End Authorizers.

(** * Method resolution and the Allow list *)

Section Resolution.

Import Handler.

Implicit Types (h : Handler.t) (m : string) (hnd : http.Handler).

(** Proof steps for the case analyses on the method: [pick] chooses the
    disjunct that holds, [refute_cases] closes a goal from a disjunction
    of cases. *)
Ltac pick :=
  first [ solve [repeat split; first [reflexivity | assumption | congruence]]
        | left; solve [repeat split; first [reflexivity | assumption | congruence]]
        | right; pick ].

Ltac refute_cases H :=
  decompose [or and] H; clear H; subst;
  first [reflexivity | congruence | discriminate | exact I | eauto].

Lemma handler_cases h m hnd (want : Permission) :
  handler h m = (Some hnd, want)
  <-> (m = "GET" /\ Get h = Some hnd /\ want = rest.Get)
      \/ (m = "GET" /\ Get h = None /\ List h = Some hnd /\ want = rest.List)
      \/ (m = "POST" /\ Post h = Some hnd /\ want = rest.Post)
      \/ (m = "PUT" /\ Put h = Some hnd /\ want = rest.Put)
      \/ (m = "DELETE" /\ Del h = Some hnd /\ want = rest.Del).
Proof.
  unfold handler.
  destruct (String.eqb_spec m "GET") as [->|HG].
  { destruct (Get h) as [g|] eqn:EG; simpl;
      (split; [intros E; injection E as E1 E2; symmetry in E2; pick
              |intros H; refute_cases H]). }
  destruct (String.eqb_spec m "POST") as [->|HP].
  { split; [intros E; injection E as E1 E2; symmetry in E2; pick
           |intros H; refute_cases H]. }
  destruct (String.eqb_spec m "PUT") as [->|HU].
  { split; [intros E; injection E as E1 E2; symmetry in E2; pick
           |intros H; refute_cases H]. }
  destruct (String.eqb_spec m "DELETE") as [->|HD].
  { split; [intros E; injection E as E1 E2; symmetry in E2; pick
           |intros H; refute_cases H]. }
  split; [discriminate|intros H; refute_cases H].
Qed.

Lemma elem_of_if (b : bool) (x m : string) :
  m ∈ (if b then [x] else []) <-> b = true /\ m = x.
Proof.
  destruct b.
  - rewrite list_elem_of_singleton. tauto.
  - split; [intros H; now apply elem_of_nil in H|intros [? _]; discriminate].
Qed.

Lemma elem_of_allowed h m :
  m ∈ allowed h
  <-> (m = "GET" /\ (notnil (List h) || notnil (Get h)) = true)
      \/ (m = "POST" /\ notnil (Post h) = true)
      \/ (m = "PUT" /\ notnil (Put h) = true)
      \/ (m = "DELETE" /\ notnil (Del h) = true).
Proof.
  rewrite allowed_spec, !elem_of_app, !elem_of_if. tauto.
Qed.

Lemma resolved_iff h m :
  is_Some (handler h m).1
  <-> (m = "GET" /\ (notnil (List h) || notnil (Get h)) = true)
      \/ (m = "POST" /\ notnil (Post h) = true)
      \/ (m = "PUT" /\ notnil (Put h) = true)
      \/ (m = "DELETE" /\ notnil (Del h) = true).
Proof.
  unfold handler.
  destruct (String.eqb_spec m "GET") as [->|HG].
  { destruct (Get h) as [g|], (List h) as [l|]; simpl; rewrite is_Some_alt;
      (split; [intros E; first [pick | destruct E]|intros H; refute_cases H]). }
  destruct (String.eqb_spec m "POST") as [->|HP].
  { destruct (Post h); simpl; rewrite is_Some_alt;
      (split; [intros E; first [pick | destruct E]|intros H; refute_cases H]). }
  destruct (String.eqb_spec m "PUT") as [->|HU].
  { destruct (Put h); simpl; rewrite is_Some_alt;
      (split; [intros E; first [pick | destruct E]|intros H; refute_cases H]). }
  destruct (String.eqb_spec m "DELETE") as [->|HD].
  { destruct (Del h); simpl; rewrite is_Some_alt;
      (split; [intros E; first [pick | destruct E]|intros H; refute_cases H]). }
  simpl. rewrite is_Some_alt.
  split; [intros E; destruct E|intros H; refute_cases H].
Qed.

(** X4: the permission required always belongs to the slot selected:
    [handler] returns a handler [hnd] with permission [want] exactly when
    the method is GET and [hnd] is the [Get] slot with [want = Get], or
    GET with a nil [Get] slot, [hnd] the [List] slot and [want = List], or
    POST, PUT, DELETE with [hnd] the slot and [want] the bit of that
    name.  Matching is exact: no other spelling of a method resolves. *)
Theorem handler_resolves h m hnd (want : Permission) :
  handler h m = (Some hnd, want)
  <-> (m = "GET" /\ Get h = Some hnd /\ want = rest.Get)
      \/ (m = "GET" /\ Get h = None /\ List h = Some hnd /\ want = rest.List)
      \/ (m = "POST" /\ Post h = Some hnd /\ want = rest.Post)
      \/ (m = "PUT" /\ Put h = Some hnd /\ want = rest.Put)
      \/ (m = "DELETE" /\ Del h = Some hnd /\ want = rest.Del).
Proof. apply handler_cases. Qed.

Lemma handler_resolves_witness :
  handler (item None) "DELETE" = (Some (reply "del"), rest.Del)
  /\ ~ handler (item None) "delete" = (Some (reply "del"), rest.Del).
Proof.
  split.
  - apply (proj2 (handler_resolves (item None) "DELETE" (reply "del") rest.Del)).
    do 4 right. repeat split.
  - intros H.
    apply (proj1 (handler_resolves (item None) "delete" (reply "del") rest.Del))
      in H.
    destruct H as [[? _]|[[? _]|[[? _]|[[? _]|[? _]]]]]; discriminate.
Defined.

(** X5: the Allow list agrees with the resolution: a method is listed by
    [allowed] exactly when [handler] finds an operation handler for it, so
    the methods a 405 response advertises are the ones that would not be
    answered 405.  The list has no duplicates and keeps the order GET,
    POST, PUT, DELETE. *)
Theorem allowed_iff_resolved h :
  (forall m, m ∈ allowed h <-> is_Some (handler h m).1)
  /\ NoDup (allowed h)
  /\ sublist (allowed h) ["GET"; "POST"; "PUT"; "DELETE"].
Proof.
  split; [|split].
  - intros m. now rewrite elem_of_allowed, resolved_iff.
  - rewrite allowed_spec.
    destruct (List h), (Get h), (Post h), (Put h), (Del h); compute_done.
  - rewrite allowed_spec.
    destruct (List h), (Get h), (Post h), (Put h), (Del h); simpl;
      repeat first [apply sublist_nil | apply sublist_skip
                   | apply sublist_cons].
Qed.

Lemma allowed_iff_resolved_witness :
  "POST" ∈ allowed (collection None) /\ "PUT" ∉ allowed (collection None).
Proof.
  split.
  - apply (proj1 (allowed_iff_resolved (collection None)) "POST").
    exists (reply "post"). reflexivity.
  - intros H.
    apply (proj1 (allowed_iff_resolved (collection None)) "PUT") in H.
    destruct H as [x H]. discriminate.
Defined.



End Resolution.

(** * Policies seen through the dispatcher *)

Section Policies.

Import Handler.

Implicit Types (h : Handler.t) (r : http.Request) (w : World).
Implicit Types (hnd : http.Handler) (want p : Permission).

Lemma land_pow2 (k g : N) : N.land (2 ^ k) g = 2 ^ k <-> N.testbit g k = true.
Proof.
  rewrite land_subset. split.
  - intros H. apply H. apply N.pow2_bits_true.
  - intros H i Hi. rewrite N.pow2_bits_eqb in Hi. apply N.eqb_eq in Hi.
    now subst i.
Qed.

(** The permission of a resolved operation is one of the five base bits. *)
Lemma want_base_bit h (m : string) hnd want :
  handler h m = (Some hnd, want) ->
  (m = "GET" /\ (want = 2 ^ 0 \/ want = 2 ^ 2))
  \/ (m <> "GET" /\ (want = 2 ^ 1 \/ want = 2 ^ 3 \/ want = 2 ^ 4)).
Proof.
  intros H. apply handler_cases in H.
  destruct H as [(-> & _ & ->)|[(-> & _ & _ & ->)|[(-> & _ & ->)|
                [(-> & _ & ->)|(-> & _ & ->)]]]].
  - left. split; [reflexivity|]. now right.
  - left. split; [reflexivity|]. now left.
  - right. split; [discriminate|]. now left.
  - right. split; [discriminate|]. right. now left.
  - right. split; [discriminate|]. right. now right.
Qed.

Lemma want_single_bit h (m : string) hnd want :
  handler h m = (Some hnd, want) -> exists k, want = 2 ^ k /\ k < 5.
Proof.
  intros H. apply want_base_bit in H.
  destruct H as [(_ & [->| ->])|(_ & [->|[->| ->]])];
    eexists; (split; [reflexivity|lia]).
Qed.

Lemma forwarded_iff h r w hnd want :
  handler h (http.Method r) = (Some hnd, want) ->
  served (calls (exec (ServeHTTP h r) w)) = served (calls w) ++ [hnd]
  <-> N.land want (granted h r) = want.
Proof.
  intros Hres. split.
  - intros E.
    destruct (N.eq_dec (N.land want (granted h r)) want) as [|Hne];
      [assumption|].
    rewrite (exec_forbidden _ _ _ _ _ Hres Hne) in E. cbn [calls] in E.
    rewrite served_app, served_authLog, app_nil_r in E.
    apply (f_equal length) in E. rewrite length_app in E. simpl in E. lia.
  - intros Hsub. rewrite (exec_allowed _ _ _ _ _ Hres Hsub). cbn [calls].
    now rewrite !served_app, served_authLog.
Qed.

(** X7: on the success path the dispatcher writes nothing itself: the
    response is what the selected handler makes of the incoming response
    and of the same request, and the record of calls gains the
    consultation of Auth (when one is configured) followed by exactly one
    invocation, of the selected handler. *)
Theorem forwards_untouched h r w hnd want :
  handler h (http.Method r) = (Some hnd, want) ->
  N.land want (granted h r) = want ->
  resp (exec (ServeHTTP h r) w) = http.ServeHTTP hnd (resp w) r
  /\ calls (exec (ServeHTTP h r) w)
     = calls w ++ authLog h r ++ [ServeCall hnd r]
  /\ served (calls (exec (ServeHTTP h r) w)) = served (calls w) ++ [hnd].
Proof.
  intros Hres Hsub. rewrite (exec_allowed _ _ _ _ _ Hres Hsub).
  cbn [resp calls]. repeat split.
  now rewrite !served_app, served_authLog.
Qed.

Lemma forwards_untouched_witness :
  resp (exec (ServeHTTP (item (Some (Everyone All))) (request "DELETE")) fresh)
  = http.Write_ "del" (resp fresh)
  /\ calls (exec (ServeHTTP (item (Some (Everyone All))) (request "DELETE"))
              fresh)
     = [AuthCall (request "DELETE"); ServeCall (reply "del") (request "DELETE")].
Proof.
  destruct (forwards_untouched (item (Some (Everyone All))) (request "DELETE")
              fresh (reply "del") rest.Del eq_refl eq_refl) as (Hr & Hc & _).
  split; [exact Hr|exact Hc].
Defined.

(** X8: what [ServeHTTP] calls, for every handler and request: the
    earlier record is kept; Auth is consulted once when the method
    resolves and an Auth is configured (also when the request is then
    refused) and not otherwise; at most one operation handler is invoked,
    the resolved one, and only when the permission check passes. *)
Theorem call_discipline h r w :
  exists new,
    calls (exec (ServeHTTP h r) w) = calls w ++ new
    /\ consulted new
       = (if notnil (handler h (http.Method r)).1 && notnil (Auth h)
          then [r] else [])
    /\ served new
       = match handler h (http.Method r) with
         | (Some hnd, want) =>
             if N.eqb (N.land want (granted h r)) want then [hnd] else []
         | (None, _) => []
         end
    /\ (length new <= 2)%nat.
Proof.
  destruct (handler h (http.Method r)) as [[hnd|] want] eqn:Hres.
  - assert (Hcons : consulted (authLog h r)
                    = if notnil (Auth h) then [r] else []).
    { unfold authLog. now destruct (Auth h). }
    assert (Hlen : (length (authLog h r) <= 1)%nat).
    { unfold authLog. destruct (Auth h); simpl; lia. }
    destruct (N.eqb_spec (N.land want (granted h r)) want) as [Hsub|Hsub].
    + exists (authLog h r ++ [ServeCall hnd r]).
      rewrite (exec_allowed _ _ _ _ _ Hres Hsub). cbn [calls].
      rewrite consulted_app, served_app, served_authLog, length_app, Hcons.
      simpl. rewrite app_nil_r. repeat split. lia.
    + exists (authLog h r).
      rewrite (exec_forbidden _ _ _ _ _ Hres Hsub). cbn [calls].
      rewrite served_authLog, Hcons. simpl. repeat split. lia.
  - exists []. rewrite exec_unresolved by now rewrite Hres.
    cbn [calls]. rewrite app_nil_r. simpl. repeat split. lia.
Qed.

(** Which operations [Read] and [Write] cover. *)
Lemma want_Read h (m : string) hnd want :
  handler h m = (Some hnd, want) ->
  (m = "GET" -> N.land want Read = want /\ N.land want Write <> want)
  /\ (m <> "GET" -> N.land want Read <> want /\ N.land want Write = want).
Proof.
  intros H. apply want_base_bit in H.
  destruct H as [(Hm & [->| ->])|(Hm & [->|[->| ->]])];
    (split; intros Hm'; [|try congruence]); try congruence;
    split; try reflexivity; discriminate.
Qed.

(** X9: the default policy, for every method: with a nil [Auth], every
    GET that resolves (to [Get] or to [List]) is forwarded, and every
    POST, PUT or DELETE that resolves is answered by the 403 error with
    no call made at all. *)
Theorem nil_Auth_read_only h r w hnd want :
  Auth h = None ->
  handler h (http.Method r) = (Some hnd, want) ->
  (http.Method r = "GET" ->
     exec (ServeHTTP h r) w
     = mkWorld (http.ServeHTTP hnd (resp w) r) (calls w ++ [ServeCall hnd r]))
  /\ (http.Method r <> "GET" ->
        exec (ServeHTTP h r) w
        = mkWorld
            (http.Error "Permission denied." http.StatusForbidden (resp w))
            (calls w)).
Proof.
  intros HA Hres.
  assert (Hg : granted h r = Read) by (unfold granted; now rewrite HA).
  assert (Hl : authLog h r = []) by (unfold authLog; now rewrite HA).
  destruct (want_Read _ _ _ _ Hres) as [HGET Hother].
  split; intros Hm.
  - rewrite (exec_allowed _ _ _ _ _ Hres); [now rewrite Hl|].
    rewrite Hg. now apply HGET.
  - rewrite (exec_forbidden _ _ _ _ _ Hres); [now rewrite Hl, app_nil_r|].
    rewrite Hg. now apply Hother.
Qed.

Lemma nil_Auth_read_only_witness :
  exec (ServeHTTP (collection None) (request "GET")) fresh
  = mkWorld (http.Write_ "list" (resp fresh))
      [ServeCall (reply "list") (request "GET")]
  /\ exec (ServeHTTP (collection None) (request "POST")) fresh
     = mkWorld (http.Error "Permission denied." http.StatusForbidden
                  (resp fresh)) [].
Proof.
  split.
  - apply (proj1 (nil_Auth_read_only (collection None) (request "GET") fresh
                    (reply "list") rest.List eq_refl eq_refl)).
    reflexivity.
  - apply (proj2 (nil_Auth_read_only (collection None) (request "POST") fresh
                    (reply "post") rest.Post eq_refl eq_refl)).
    discriminate.
Defined.

(** X10: [Everyone p] as the Auth of a handler: when [p] contains [All]
    every request that resolves is forwarded, whatever the method; when
    [p] is 0 every request that resolves is answered by the 403 error.
    In both cases Auth is consulted once. *)
Theorem Everyone_extremes h r w hnd want p :
  Auth h = Some (Everyone p) ->
  handler h (http.Method r) = (Some hnd, want) ->
  (N.land All p = All ->
     exec (ServeHTTP h r) w
     = mkWorld (http.ServeHTTP hnd (resp w) r)
         (calls w ++ [AuthCall r; ServeCall hnd r]))
  /\ (p = 0 ->
        exec (ServeHTTP h r) w
        = mkWorld
            (http.Error "Permission denied." http.StatusForbidden (resp w))
            (calls w ++ [AuthCall r])).
Proof.
  intros HA Hres.
  assert (Hg : granted h r = p) by (unfold granted; now rewrite HA).
  assert (Hl : authLog h r = [AuthCall r]) by (unfold authLog; now rewrite HA).
  destruct (want_single_bit _ _ _ _ Hres) as (k & -> & Hk).
  split.
  - intros Hall. rewrite (exec_allowed _ _ _ _ _ Hres); [now rewrite Hl|].
    rewrite Hg. apply land_pow2.
    assert (Hbit : N.testbit All k = true).
    { assert (Hc : k = 0 \/ k = 1 \/ k = 2 \/ k = 3 \/ k = 4) by lia.
      destruct Hc as [->|[->|[->|[->| ->]]]]; reflexivity. }
    rewrite <- Hall, N.land_spec in Hbit. now apply andb_true_iff in Hbit.
  - intros ->. rewrite (exec_forbidden _ _ _ _ _ Hres); [now rewrite Hl|].
    rewrite Hg, N.land_0_r. symmetry. apply N.pow_nonzero. lia.
Qed.

Lemma Everyone_extremes_witness :
  exec (ServeHTTP (item (Some (Everyone All))) (request "PUT")) fresh
  = mkWorld (http.Write_ "put" (resp fresh))
      [AuthCall (request "PUT"); ServeCall (reply "put") (request "PUT")]
  /\ exec (ServeHTTP (item (Some (Everyone 0))) (request "GET")) fresh
     = mkWorld (http.Error "Permission denied." http.StatusForbidden
                  (resp fresh)) [AuthCall (request "GET")].
Proof.
  split.
  - apply (proj1 (Everyone_extremes (item (Some (Everyone All)))
                    (request "PUT") fresh (reply "put") rest.Put All
                    eq_refl eq_refl)).
    reflexivity.
  - apply (proj2 (Everyone_extremes (item (Some (Everyone 0)))
                    (request "GET") fresh (reply "get") rest.Get 0
                    eq_refl eq_refl)).
    reflexivity.
Defined.

(** X11: a nil [Auth] and [Everyone(Read)] are the same policy: for the
    same slots, request and incoming response, the response produced is
    the same and the same operation handlers are invoked; the only
    difference is that the latter is consulted. *)
Theorem Everyone_Read_is_default (l p g u d : option http.Handler) r w :
  resp (exec (ServeHTTP (Handler.mk (Some (Everyone Read)) l p g u d) r) w)
  = resp (exec (ServeHTTP (Handler.mk None l p g u d) r) w)
  /\ served (calls (exec (ServeHTTP
                            (Handler.mk (Some (Everyone Read)) l p g u d) r) w))
     = served (calls (exec (ServeHTTP (Handler.mk None l p g u d) r) w)).
Proof.
  set (h1 := Handler.mk (Some (Everyone Read)) l p g u d).
  set (h2 := Handler.mk None l p g u d).
  assert (Hsame : handler h1 (http.Method r) = handler h2 (http.Method r))
    by reflexivity.
  destruct (handler h2 (http.Method r)) as [[hnd|] want] eqn:Hres.
  - unfold exec.
    rewrite (ServeHTTP_resolved h1 _ _ _ _ Hsame),
            (ServeHTTP_resolved h2 _ _ _ _ Hres).
    change (granted h1 r) with Read. change (granted h2 r) with Read.
    destruct (N.eqb (N.land want Read) want); cbn [snd resp calls];
      now rewrite !served_app.
  - rewrite (exec_unresolved h1) by now rewrite Hsame.
    rewrite (exec_unresolved h2) by now rewrite Hres.
    split; reflexivity.
Qed.

(** X12: [Any] as the Auth of a handler: since every operation requires
    a single bit, a request that resolves is forwarded exactly when one of
    the listed authorizers, on its own, grants the required permission;
    with an empty list nothing is ever forwarded. *)
Theorem Any_admits_iff_some h r w hnd want (f : list Authorizer) :
  Auth h = Some (Any f) ->
  handler h (http.Method r) = (Some hnd, want) ->
  served (calls (exec (ServeHTTP h r) w)) = served (calls w) ++ [hnd]
  <-> exists v, v ∈ f /\ N.land want (v r) = want.
Proof.
  intros HA Hres. rewrite (forwarded_iff _ _ _ _ _ Hres).
  assert (Hg : granted h r = Any f r) by (unfold granted; now rewrite HA).
  rewrite Hg. destruct (want_single_bit _ _ _ _ Hres) as (k & -> & _).
  rewrite land_pow2, Any_testbit, existsb_exists. split.
  - intros (v & Hv & Hbit). exists v. split; [now apply list_elem_of_In|].
    now apply land_pow2.
  - intros (v & Hv & Hbit). exists v. split; [now apply list_elem_of_In|].
    now apply land_pow2.
Qed.

Lemma Any_admits_iff_some_witness :
  served (calls (exec (ServeHTTP
                         (item (Some (Any [Everyone Read;
                                           rest_test.MembersCanWrite])))
                         (request "PUT")) fresh))
  = [reply "put"].
Proof.
  apply (proj2 (Any_admits_iff_some
                  (item (Some (Any [Everyone Read; rest_test.MembersCanWrite])))
                  (request "PUT") fresh (reply "put") rest.Put
                  [Everyone Read; rest_test.MembersCanWrite]
                  eq_refl eq_refl)).
  exists rest_test.MembersCanWrite. split; [|reflexivity].
  apply list_elem_of_further, list_elem_of_here.
Defined.

(** X13: access grows with the permission granted: for the same slots,
    request and incoming response, if every bit granted under one Auth is
    granted under another, a request forwarded under the first is
    forwarded, to the same handler, under the second. *)
Theorem more_permission_more_access
    (a1 a2 : option Authorizer) (l p g u d : option http.Handler) r w hnd :
  N.land (granted (Handler.mk a1 l p g u d) r)
         (granted (Handler.mk a2 l p g u d) r)
  = granted (Handler.mk a1 l p g u d) r ->
  served (calls (exec (ServeHTTP (Handler.mk a1 l p g u d) r) w))
  = served (calls w) ++ [hnd] ->
  served (calls (exec (ServeHTTP (Handler.mk a2 l p g u d) r) w))
  = served (calls w) ++ [hnd].
Proof.
  set (h1 := Handler.mk a1 l p g u d). set (h2 := Handler.mk a2 l p g u d).
  intros Hle Hfw.
  assert (Hlen : served (calls w) <> served (calls w) ++ [hnd]).
  { intros E. apply (f_equal length) in E. rewrite length_app in E.
    simpl in E. lia. }
  destruct (handler h1 (http.Method r)) as [[hnd'|] want] eqn:Hres1.
  - assert (Hres2 : handler h2 (http.Method r) = (Some hnd', want))
      by exact Hres1.
    destruct (N.eq_dec (N.land want (granted h1 r)) want) as [Hsub|Hsub].
    + pose proof (proj2 (forwarded_iff _ _ w _ _ Hres1) Hsub) as Hfw'.
      rewrite Hfw in Hfw'. apply app_inj_tail in Hfw' as [_ <-].
      apply (forwarded_iff _ _ _ _ _ Hres2).
      apply land_subset. intros i Hi.
      apply (proj1 (land_subset _ _) Hle).
      now apply (proj1 (land_subset _ _) Hsub).
    + rewrite (exec_forbidden _ _ _ _ _ Hres1 Hsub) in Hfw. cbn [calls] in Hfw.
      rewrite served_app, served_authLog, app_nil_r in Hfw. now destruct Hlen.
  - rewrite exec_unresolved in Hfw by now rewrite Hres1.
    cbn [calls] in Hfw. now destruct Hlen.
Qed.

Lemma more_permission_more_access_witness :
  served (calls (exec (ServeHTTP (item (Some (Everyone All))) (request "GET"))
                   fresh))
  = [reply "get"].
Proof.
  apply (more_permission_more_access None (Some (Everyone All))
           None None (Some (reply "get")) (Some (reply "put"))
           (Some (reply "del")) (request "GET") fresh (reply "get"));
    reflexivity.
Defined.

(** X14: the authorizer of the example, [MembersCanWrite], grants [Write]
    and nothing else to every request; on a handler that uses it, every
    POST, PUT or DELETE that resolves is forwarded and every GET that
    resolves is answered by the 403 error: members cannot read. *)
Theorem MembersCanWrite_policy h r w hnd want :
  Auth h = Some rest_test.MembersCanWrite ->
  handler h (http.Method r) = (Some hnd, want) ->
  granted h r = Write
  /\ (http.Method r <> "GET" ->
        exec (ServeHTTP h r) w
        = mkWorld (http.ServeHTTP hnd (resp w) r)
            (calls w ++ [AuthCall r; ServeCall hnd r]))
  /\ (http.Method r = "GET" ->
        exec (ServeHTTP h r) w
        = mkWorld
            (http.Error "Permission denied." http.StatusForbidden (resp w))
            (calls w ++ [AuthCall r])).
Proof.
  intros HA Hres.
  assert (Hg : granted h r = Write) by (unfold granted; now rewrite HA).
  assert (Hl : authLog h r = [AuthCall r]) by (unfold authLog; now rewrite HA).
  destruct (want_Read _ _ _ _ Hres) as [HGET Hother].
  split; [exact Hg|]. split; intros Hm.
  - rewrite (exec_allowed _ _ _ _ _ Hres); [now rewrite Hl|].
    rewrite Hg. now apply Hother.
  - rewrite (exec_forbidden _ _ _ _ _ Hres); [now rewrite Hl|].
    rewrite Hg. now apply HGET.
Qed.

Lemma MembersCanWrite_policy_witness :
  exec (ServeHTTP (item (Some rest_test.MembersCanWrite)) (request "GET")) fresh
  = mkWorld (http.Error "Permission denied." http.StatusForbidden (resp fresh))
      [AuthCall (request "GET")].
Proof.
  apply (proj2 (proj2 (MembersCanWrite_policy
                         (item (Some rest_test.MembersCanWrite))
                         (request "GET") fresh (reply "get") rest.Get
                         eq_refl eq_refl))).
  reflexivity.
Defined.

(** X15: the 405 answer depends on the handler only: any two requests
    whose methods do not resolve, whatever their methods, paths and
    headers, leave the same world behind. *)
Theorem method_not_allowed_same_answer h (r1 r2 : http.Request) w :
  (handler h (http.Method r1)).1 = None ->
  (handler h (http.Method r2)).1 = None ->
  ServeHTTP h r1 w = ServeHTTP h r2 w.
Proof.
  intros H1 H2.
  now rewrite (ServeHTTP_unresolved _ _ _ H1), (ServeHTTP_unresolved _ _ _ H2).
Qed.

Lemma method_not_allowed_same_answer_witness :
  ServeHTTP (collection None) (request "DELETE") fresh
  = ServeHTTP (collection None)
      (http.mkRequest "get" "/orders/7" {["Cookie" := ["member"]]}) fresh.
Proof.
  apply (method_not_allowed_same_answer (collection None)); reflexivity.
Defined.

End Policies.
